(** * The BAYCBOT dashboard script, static/js/dashboard.js

    The script registers one DOMContentLoaded listener.  The listener fetches
    /api/stats, parses the body as JSON and hands the parsed value to two
    render routines, updateActivityChart and updateResponseChart, each of
    which looks a canvas up in the page and calls the Chart constructor of the
    charting library with an object literal.

    The embedding is shallow: JavaScript values are a small inductive type
    over a heap of objects, the script's effects (network, DOM lookups,
    constructor calls, exceptions) are a state-and-exception monad whose
    state carries the trace of calls made so far, and a promise is its
    settled outcome. *)

From stdpp Require Import gmap strings list fin_maps.
From Stdlib Require Import ZArith.

Open Scope Z_scope.
Open Scope string_scope.
Open Scope list_scope.

(** ** JavaScript values *)

(** Object identities.  A JSON object or array lives in the heap and is
    handed around by reference, as in JavaScript. *)
Definition loc := nat.

(** The values a parsed JSON body or one of its properties can be, plus
    [VUndefined], which reading an absent property gives.  The script does no
    arithmetic, so a number only needs its identity; integers stand for the
    counts of the payload. *)
Inductive value : Type :=
| VUndefined
| VNull
| VBool (b : bool)
| VNum (n : Z)
| VStr (s : string)
| VRef (l : loc).

Abbreviation obj := (gmap string value).
Abbreviation heap_t := (gmap loc obj).

Inductive exn : Type :=
| TypeError (msg : string)
| SyntaxError (msg : string)
| OtherError (msg : string).

Inductive result (A : Type) : Type :=
| Ok (a : A)
| Throw (e : exn).
Arguments Ok {A} a.
Arguments Throw {A} e.

(** [data.k] for the property names the script reads (post_count,
    reply_count, mention_count, text_response_count, image_response_count;
    none of them is a built-in property of a primitive or of an array).
    Reading a property of null or undefined throws a TypeError; a primitive
    has no such property; an object gives its own property or undefined.  A
    reference the heap does not hold reads as an object without
    properties; JSON parsing never produces one. *)
Definition get_prop (h : heap_t) (v : value) (k : string) : result value :=
  match v with
  | VUndefined => Throw (TypeError "Cannot read properties of undefined")
  | VNull => Throw (TypeError "Cannot read properties of null")
  | VBool _ | VNum _ | VStr _ => Ok VUndefined
  | VRef l =>
      match h !! l with
      | Some o => Ok (default VUndefined (o !! k))
      | None => Ok VUndefined
      end
  end.

(** ** The argument of the Chart constructor *)

Module Dataset.
Record t : Type := {
  label : option string;
  data : list value;
  backgroundColor : list string;
  borderColor : list string;
  borderWidth : Z
}.
End Dataset.

Record ChartData : Type := {
  labels : list string;
  datasets : list Dataset.t
}.

Record Axis : Type := { beginAtZero : bool }.
Record Scales : Type := { y : Axis }.
Record Options : Type := { scales : Scales }.

Module Config.
Record t : Type := {
  type : string;
  data : ChartData;
  options : option Options
}.
End Config.

(** ** The page: DOM, network, charting library *)

Inductive context : Type := Context2D (canvas : string).

(** An element of the page: a canvas, whose getContext gives a drawing
    context or null, or some other element, which has no getContext. *)
Inductive element : Type :=
| Canvas (getContext : string -> option context)
| OtherElement.

(** What the script does to the outside, in order.  [EvCall] marks the entry
    of one of the script's own functions with its argument. *)
Inductive event : Type :=
| EvFetch (url : string)
| EvJson
| EvCall (fn : string) (arg : value)
| EvGetElementById (id : string)
| EvGetContext (kind : string)
| EvNewChart (ctx : option context) (cfg : Config.t).

(** A promise, by its settled outcome. *)
Inductive promise (A : Type) : Type :=
| Fulfilled (a : A)
| Rejected (e : exn).
Arguments Fulfilled {A} a.
Arguments Rejected {A} e.

(** A response of the network: what its json() method settles to, the parsed
    value together with the objects parsing allocates. *)
Record Response : Type := {
  json : promise (value * heap_t)
}.

(** The collaborators the script does not define: the network behind fetch,
    the document, and whether the Chart constructor throws (it sees the
    calls made so far, its drawing context and its configuration). *)
Record env : Type := {
  network : string -> promise Response;
  document : gmap string element;
  chart_throws : list event -> option context -> Config.t -> option exn
}.

Record state : Type := {
  trace : list event;
  heap : heap_t
}.

(** ** The effect monad: state passing with exceptions *)

Definition M (A : Type) : Type := state -> result A * state.

Definition ret {A} (a : A) : M A := fun st => (Ok a, st).

Definition bind {A B} (m : M A) (k : A -> M B) : M B :=
  fun st =>
    match m st with
    | (Ok a, st') => k a st'
    | (Throw e, st') => (Throw e, st')
    end.

Definition throw {A} (e : exn) : M A := fun st => (Throw e, st).

Definition emit (ev : event) : M unit :=
  fun st => (Ok tt, {| trace := trace st ++ [ev]; heap := heap st |}).

Definition get_heap : M heap_t :=
  fun st => (Ok (heap st), st).

Definition alloc (objs : heap_t) : M unit :=
  fun st => (Ok tt, {| trace := trace st; heap := objs ∪ heap st |}).

Definition lift {A} (r : result A) : M A := fun st => (r, st).

Declare Scope js_scope.
Delimit Scope js_scope with js.
Notation "'let*' x ':=' m 'in' k" := (bind m (fun x => k))
  (at level 10, x name, m at level 100, k at level 200, only parsing) : js_scope.
Notation "m ';;;' k" := (bind m (fun _ => k))
  (at level 100, k at level 200, right associativity, only parsing) : js_scope.
Open Scope js_scope.

(** [p.then(f)]: a rejected promise skips [f] and passes its reason on; a
    fulfilled one runs [f], and an exception thrown by [f] rejects the
    promise that [then] returns.  [f] gives the promise its result resolves
    to.  No rejection handler is involved: the script never passes one. *)
Definition then_ {A B} (p : promise A) (f : A -> M (promise B)) : M (promise B) :=
  fun st =>
    match p with
    | Rejected e => (Ok (Rejected e), st)
    | Fulfilled a =>
        match f a st with
        | (Ok q, st') => (Ok q, st')
        | (Throw e, st') => (Ok (Rejected e), st')
        end
    end.

(** ** The calls of the script into the page *)

Definition fetch (E : env) (url : string) : M (promise Response) :=
  emit (EvFetch url) ;;;
  ret (network E url).

(** [response.json()] *)
Definition response_json (r : Response) : M (promise value) :=
  emit EvJson ;;;
  match json r with
  | Fulfilled (v, objs) => alloc objs ;;; ret (Fulfilled v)
  | Rejected e => ret (Rejected e)
  end.

Definition getElementById (E : env) (id : string) : M (option element) :=
  emit (EvGetElementById id) ;;;
  ret (document E !! id).

(** [el.getContext(kind)], where [el] is what getElementById gave: null
    when the page has no such element. *)
Definition getContext (el : option element) (kind : string) : M (option context) :=
  match el with
  | None => throw (TypeError "Cannot read properties of null")
  | Some OtherElement => throw (TypeError "getContext is not a function")
  | Some (Canvas gc) => emit (EvGetContext kind) ;;; ret (gc kind)
  end.

(** [new Chart(ctx, cfg)], on a page that has loaded the charting library,
    so that the name Chart resolves.  The arguments are evaluated by the
    caller before the constructor runs. *)
Definition Chart (E : env) (ctx : option context) (cfg : Config.t) : M unit :=
  emit (EvNewChart ctx cfg) ;;;
  fun st =>
    match chart_throws E (trace st) ctx cfg with
    | Some e => (Throw e, st)
    | None => (Ok tt, st)
    end.

(** [data.k] *)
Definition prop (data : value) (k : string) : M value :=
  let* h := get_heap in lift (get_prop h data k).

(** ** The script *)

(** dashboard.js, lines 11-45 *)
Definition updateActivityChart (E : env) (data : value) : M unit :=
  emit (EvCall "updateActivityChart" data) ;;;
  let* el := getElementById E "activityChart" in
  let* ctx := getContext el "2d" in
  let* d0 := prop data "post_count" in
  let* d1 := prop data "reply_count" in
  let* d2 := prop data "mention_count" in
  Chart E ctx
    {| Config.type := "bar";
       Config.data :=
         {| labels := ["Posts"; "Replies"; "Mentions"];
            datasets :=
              [ {| Dataset.label := Some "Count";
                   Dataset.data := [d0; d1; d2];
                   Dataset.backgroundColor :=
                     [ "rgba(75, 192, 192, 0.2)";
                       "rgba(54, 162, 235, 0.2)";
                       "rgba(153, 102, 255, 0.2)" ];
                   Dataset.borderColor :=
                     [ "rgba(75, 192, 192, 1)";
                       "rgba(54, 162, 235, 1)";
                       "rgba(153, 102, 255, 1)" ];
                   Dataset.borderWidth := 1 |} ] |};
       Config.options :=
         Some {| scales := {| y := {| beginAtZero := true |} |} |} |}.

(** dashboard.js, lines 48-71 *)
Definition updateResponseChart (E : env) (data : value) : M unit :=
  emit (EvCall "updateResponseChart" data) ;;;
  let* el := getElementById E "responseChart" in
  let* ctx := getContext el "2d" in
  let* d0 := prop data "text_response_count" in
  let* d1 := prop data "image_response_count" in
  Chart E ctx
    {| Config.type := "pie";
       Config.data :=
         {| labels := ["Text Responses"; "Image Responses"];
            datasets :=
              [ {| Dataset.label := None;
                   Dataset.data := [d0; d1];
                   Dataset.backgroundColor :=
                     [ "rgba(255, 99, 132, 0.2)";
                       "rgba(255, 206, 86, 0.2)" ];
                   Dataset.borderColor :=
                     [ "rgba(255, 99, 132, 1)";
                       "rgba(255, 206, 86, 1)" ];
                   Dataset.borderWidth := 1 |} ] |};
       Config.options := None |}.

(** dashboard.js, lines 1-8: the body of the DOMContentLoaded listener.  The
    script drops the promise the chain ends in; the model returns it, so that
    what became of it can be stated. *)
Definition DOMContentLoaded (E : env) : M (promise value) :=
  let* p0 := fetch E "/api/stats" in
  let* p1 := then_ p0 (fun response => response_json response) in
  then_ p1 (fun data =>
    updateActivityChart E data ;;;
    updateResponseChart E data ;;;
    ret (Fulfilled VUndefined)).

(** ** The payload of /api/stats *)

Record StatisticsSnapshot : Type := {
  post_count : Z;
  reply_count : Z;
  mention_count : Z;
  text_response_count : Z;
  image_response_count : Z
}.

(** The object a snapshot is received as. *)
Definition snapshot_obj (s : StatisticsSnapshot) : obj :=
  {[ "post_count" := VNum (post_count s);
     "reply_count" := VNum (reply_count s);
     "mention_count" := VNum (mention_count s);
     "text_response_count" := VNum (text_response_count s);
     "image_response_count" := VNum (image_response_count s) ]}.

(** [data] deserializes to the snapshot [s] in heap [h]: each of the five
    properties reads as the number of [s].  Further properties are allowed. *)
Definition represents (h : heap_t) (data : value) (s : StatisticsSnapshot) : Prop :=
  get_prop h data "post_count" = Ok (VNum (post_count s)) /\
  get_prop h data "reply_count" = Ok (VNum (reply_count s)) /\
  get_prop h data "mention_count" = Ok (VNum (mention_count s)) /\
  get_prop h data "text_response_count" = Ok (VNum (text_response_count s)) /\
  get_prop h data "image_response_count" = Ok (VNum (image_response_count s)).

(** What JSON parsing can give: any value but undefined. *)
Definition is_json (d : value) : bool :=
  match d with
  | VUndefined => false
  | _ => true
  end.

(** ** Reading a trace *)

(** The constructor calls of a trace, in order. *)
Fixpoint chart_calls (tr : list event) : list (option context * Config.t) :=
  match tr with
  | [] => []
  | EvNewChart ctx cfg :: tr' => (ctx, cfg) :: chart_calls tr'
  | _ :: tr' => chart_calls tr'
  end.

(** How often the script entered its function [fn]. *)
Fixpoint calls_of (fn : string) (tr : list event) : nat :=
  match tr with
  | [] => 0%nat
  | EvCall f _ :: tr' => ((if String.eqb f fn then 1 else 0) + calls_of fn tr')%nat
  | _ :: tr' => calls_of fn tr'
  end.

(** The data arrays a configuration hands to the constructor, one per
    dataset. *)
Definition data_arrays (cfg : Config.t) : list (list value) :=
  Dataset.data <$> datasets (Config.data cfg).

(** The events a computation adds to the trace when run from [st]. *)
Definition emitted {A} (m : M A) (st : state) : list event :=
  drop (length (trace st)) (trace (m st).2).

(** The state in which the second callback of the chain starts: the request
    was made, the body parsed, and the parsed objects are in the heap. *)
Definition after_parse (st : state) (objs : heap_t) : state :=
  {| trace := trace st ++ [EvFetch "/api/stats"; EvJson];
     heap := objs ∪ heap st |}.

(** The rejection a settled chain is left with.  The script attaches nothing
    to the last promise of its chain, so this is where a failure ends. *)
Definition unhandled_rejection {A} (r : result (promise A)) : option exn :=
  match r with
  | Ok (Rejected e) => Some e
  | Ok (Fulfilled _) => None
  | Throw e => Some e
  end.

(** ** What the script expects, and what is stated of it *)

(** What the hosting page owes the script: both drawing surfaces are
    canvases of the page. *)
Definition surfaces (E : env) (gcA gcR : string -> option context) : Prop :=
  document E !! "activityChart" = Some (Canvas gcA) /\
  document E !! "responseChart" = Some (Canvas gcR).

(** What the charting library owes it: the constructor returns. *)
Definition library_renders (E : env) : Prop :=
  forall tr ctx cfg, chart_throws E tr ctx cfg = None.

(** The two routines hand the five properties of [data] to the constructor
    as they read them: each makes one constructor call, and the data arrays
    hold, in order, the results of the property reads. *)
Definition passes_fields_through (E : env) (data : value) (st : state) : Prop :=
  exists ctxA cfgA ctxR cfgR v0 v1 v2 v3 v4,
    chart_calls (emitted (updateActivityChart E data) st) = [(ctxA, cfgA)] /\
    chart_calls (emitted (updateResponseChart E data) st) = [(ctxR, cfgR)] /\
    data_arrays cfgA = [[v0; v1; v2]] /\
    data_arrays cfgR = [[v3; v4]] /\
    get_prop (heap st) data "post_count" = Ok v0 /\
    get_prop (heap st) data "reply_count" = Ok v1 /\
    get_prop (heap st) data "mention_count" = Ok v2 /\
    get_prop (heap st) data "text_response_count" = Ok v3 /\
    get_prop (heap st) data "image_response_count" = Ok v4.

(** Two payloads read alike on the properties [ks]. *)
Definition agree_on (ks : list string)
    (h1 : heap_t) (d1 : value) (h2 : heap_t) (d2 : value) : Prop :=
  Forall (fun k => get_prop h1 d1 k = get_prop h2 d2 k) ks.

(** A computation is [quiet] when its result and the events it adds are a
    function of the heap alone and it leaves the heap as it found it;
    [steady] asks the same of the events and the heap only, so that the
    result may depend on the trace, as that of the constructor does. *)
Definition quiet {A} (m : M A) : Prop :=
  exists out : heap_t -> result A * list event,
    forall st, m st = ((out (heap st)).1,
                       {| trace := trace st ++ (out (heap st)).2;
                          heap := heap st |}).

Definition steady {A} (m : M A) : Prop :=
  exists evs : heap_t -> list event,
    forall st, trace (m st).2 = trace st ++ evs (heap st) /\
               heap (m st).2 = heap st.

(** ** Concrete pages, servers and payloads, for running the script *)

(** A canvas that hands out its 2d context, and nothing else. *)
Definition context_of (id : string) (kind : string) : option context :=
  if String.eqb kind "2d" then Some (Context2D id) else None.

Definition canvas2d (id : string) : element := Canvas (context_of id).

(** A page with both drawing surfaces, and one that lacks the activity
    surface. *)
Definition page_full : gmap string element :=
  {[ "activityChart" := canvas2d "activityChart";
     "responseChart" := canvas2d "responseChart" ]}.

Definition page_no_activity : gmap string element :=
  {[ "responseChart" := canvas2d "responseChart" ]}.

(** A charting library whose constructor always returns. *)
Definition chart_ok (tr : list event) (ctx : option context) (cfg : Config.t)
  : option exn := None.

(** A server that answers /api/stats with the JSON value [v], whose objects
    are [objs]; one that answers with the snapshot [s], parsed into object
    0; one that is down; one whose body is not JSON. *)
Definition serve (v : value) (objs : heap_t) (url : string) : promise Response :=
  if String.eqb url "/api/stats"
  then Fulfilled {| json := Fulfilled (v, objs) |}
  else Rejected (TypeError "Failed to fetch").

Definition serve_snapshot (s : StatisticsSnapshot) : string -> promise Response :=
  serve (VRef 0%nat) {[ 0%nat := snapshot_obj s ]}.

Definition network_down (url : string) : promise Response :=
  Rejected (TypeError "Failed to fetch").

Definition serve_garbage (url : string) : promise Response :=
  Fulfilled {| json := Rejected (SyntaxError "Unexpected token < in JSON") |}.

Definition snapshot_5_3_1_7_2 : StatisticsSnapshot :=
  {| post_count := 5; reply_count := 3; mention_count := 1;
     text_response_count := 7; image_response_count := 2 |}.

Definition snapshot_50_30_10_7_2 : StatisticsSnapshot :=
  {| post_count := 50; reply_count := 30; mention_count := 10;
     text_response_count := 7; image_response_count := 2 |}.

Definition snapshot_5_3_1_70_20 : StatisticsSnapshot :=
  {| post_count := 5; reply_count := 3; mention_count := 1;
     text_response_count := 70; image_response_count := 20 |}.

Definition snapshot_zero : StatisticsSnapshot :=
  {| post_count := 0; reply_count := 0; mention_count := 0;
     text_response_count := 0; image_response_count := 0 |}.

(** A payload that is no snapshot: a negative count, a string, no
    mention_count, a null and a boolean. *)
Definition odd_obj : obj :=
  {[ "post_count" := VNum (-4);
     "reply_count" := VStr "many";
     "text_response_count" := VNull;
     "image_response_count" := VBool true ]}.

(** The state at page load, and states in which object 0 is a parsed
    payload. *)
Definition state0 : state := {| trace := []; heap := ∅ |}.

Definition state_of (s : StatisticsSnapshot) : state :=
  {| trace := []; heap := {[ 0%nat := snapshot_obj s ]} |}.

Definition state_5_3_1_7_2 : state := state_of snapshot_5_3_1_7_2.

Definition state_odd : state :=
  {| trace := []; heap := {[ 0%nat := odd_obj ]} |}.

Definition env_5_3_1_7_2 : env :=
  {| network := serve_snapshot snapshot_5_3_1_7_2;
     document := page_full;
     chart_throws := chart_ok |}.

Definition env_zero : env :=
  {| network := serve_snapshot snapshot_zero;
     document := page_full;
     chart_throws := chart_ok |}.

(** The snapshot arrives, but the page has no activity surface. *)
Definition env_no_activity : env :=
  {| network := serve_snapshot snapshot_5_3_1_7_2;
     document := page_no_activity;
     chart_throws := chart_ok |}.

(** The body is the JSON text null. *)
Definition env_null : env :=
  {| network := serve VNull ∅; document := page_full; chart_throws := chart_ok |}.

Definition env_down : env :=
  {| network := network_down; document := page_full; chart_throws := chart_ok |}.

Definition env_garbage : env :=
  {| network := serve_garbage; document := page_full; chart_throws := chart_ok |}.

(** ** The steps of a page load *)

(** The urls a trace requests, in order. *)
Fixpoint fetches (tr : list event) : list string :=
  match tr with
  | [] => []
  | EvFetch url :: tr' => url :: fetches tr'
  | _ :: tr' => fetches tr'
  end.

(** The element ids a trace looks up, in order. *)
Fixpoint lookups (tr : list event) : list string :=
  match tr with
  | [] => []
  | EvGetElementById id :: tr' => id :: lookups tr'
  | _ :: tr' => lookups tr'
  end.

(** What each routine does when nothing stops it, and what a whole load
    does: lines 12-13, lines 49-50, and lines 3-7 around them. *)
Definition activity_steps (d : value) (ctx : option context) (cfg : Config.t)
  : list event :=
  [EvCall "updateActivityChart" d; EvGetElementById "activityChart";
   EvGetContext "2d"; EvNewChart ctx cfg].

Definition response_steps (d : value) (ctx : option context) (cfg : Config.t)
  : list event :=
  [EvCall "updateResponseChart" d; EvGetElementById "responseChart";
   EvGetContext "2d"; EvNewChart ctx cfg].

Definition load_steps (d : value)
    (ctxA : option context) (cfgA : Config.t)
    (ctxR : option context) (cfgR : Config.t) : list event :=
  [EvFetch "/api/stats"; EvJson]
    ++ activity_steps d ctxA cfgA ++ response_steps d ctxR cfgR.

(** A configuration with the data arrays of its datasets emptied: what is
    left is the type, the labels, the styling and the options. *)
Definition without_data (cfg : Config.t) : Config.t :=
  {| Config.type := Config.type cfg;
     Config.data :=
       {| labels := labels (Config.data cfg);
          datasets :=
            (fun ds =>
               {| Dataset.label := Dataset.label ds;
                  Dataset.data := [];
                  Dataset.backgroundColor := Dataset.backgroundColor ds;
                  Dataset.borderColor := Dataset.borderColor ds;
                  Dataset.borderWidth := Dataset.borderWidth ds |})
              <$> datasets (Config.data cfg) |};
     Config.options := Config.options cfg |}.

(** The constructor calls of a trace, data arrays left out. *)
Definition styled_calls (tr : list event) : list (option context * Config.t) :=
  (fun c => (c.1, without_data c.2)) <$> chart_calls tr.

(** The element under [id] is not a canvas: there is none, or it is some
    other element. *)
Definition no_canvas (E : env) (id : string) : Prop :=
  document E !! id = None \/ document E !! id = Some OtherElement.

(** A page that lacks the response surface, and a page whose activity
    surface is a div. *)
Definition page_no_response : gmap string element :=
  {[ "activityChart" := canvas2d "activityChart" ]}.

Definition page_div_activity : gmap string element :=
  {[ "activityChart" := OtherElement;
     "responseChart" := canvas2d "responseChart" ]}.

Definition env_no_response : env :=
  {| network := serve_snapshot snapshot_5_3_1_7_2;
     document := page_no_response;
     chart_throws := chart_ok |}.

Definition env_div_activity : env :=
  {| network := serve_snapshot snapshot_5_3_1_7_2;
     document := page_div_activity;
     chart_throws := chart_ok |}.

(** An object payload with two of the five properties. *)
Definition sparse_obj : obj :=
  {[ "reply_count" := VNum 3; "image_response_count" := VNum 2 ]}.

Definition state_sparse : state :=
  {| trace := []; heap := {[ 0%nat := sparse_obj ]} |}.

(** * Properties *)

(** ** Running the two render routines *)

Ltac unfold_js :=
  unfold updateActivityChart, updateResponseChart, getElementById, getContext,
    Chart, prop, fetch, response_json, bind, ret, throw, emit, get_heap, lift,
    alloc; simpl.

Lemma chart_outcome (o : option exn) (st : state) :
  match o with
  | Some e => (Throw e, st)
  | None => (Ok tt, st)
  end = (match o with Some e => Throw e | None => Ok tt end, st).
Proof. by destruct o. Qed.

(** With its canvas in the page and the three reads succeeding,
    updateActivityChart reaches the constructor, once, and its outcome is the
    constructor's. *)
Lemma updateActivityChart_run E d st gc v0 v1 v2 :
  document E !! "activityChart" = Some (Canvas gc) ->
  get_prop (heap st) d "post_count" = Ok v0 ->
  get_prop (heap st) d "reply_count" = Ok v1 ->
  get_prop (heap st) d "mention_count" = Ok v2 ->
  exists cfg ds,
    let tr := trace st ++
      [EvCall "updateActivityChart" d; EvGetElementById "activityChart";
       EvGetContext "2d"; EvNewChart (gc "2d") cfg] in
    updateActivityChart E d st =
      (match chart_throws E tr (gc "2d") cfg with
       | Some e => Throw e
       | None => Ok tt
       end, {| trace := tr; heap := heap st |}) /\
    Config.type cfg = "bar" /\
    labels (Config.data cfg) = ["Posts"; "Replies"; "Mentions"] /\
    datasets (Config.data cfg) = [ds] /\
    Dataset.data ds = [v0; v1; v2] /\
    Dataset.backgroundColor ds =
      ["rgba(75, 192, 192, 0.2)"; "rgba(54, 162, 235, 0.2)";
       "rgba(153, 102, 255, 0.2)"] /\
    Dataset.borderColor ds =
      ["rgba(75, 192, 192, 1)"; "rgba(54, 162, 235, 1)";
       "rgba(153, 102, 255, 1)"] /\
    Config.options cfg = Some {| scales := {| y := {| beginAtZero := true |} |} |}.
Proof.
  intros Hdoc H0 H1 H2. do 2 eexists. cbv zeta.
  split.
  - unfold_js. rewrite Hdoc. simpl. rewrite H0, H1, H2. simpl.
    rewrite <- !app_assoc. simpl. apply chart_outcome.
  - simpl. repeat split; reflexivity.
Qed.

Lemma updateResponseChart_run E d st gc v0 v1 :
  document E !! "responseChart" = Some (Canvas gc) ->
  get_prop (heap st) d "text_response_count" = Ok v0 ->
  get_prop (heap st) d "image_response_count" = Ok v1 ->
  exists cfg ds,
    let tr := trace st ++
      [EvCall "updateResponseChart" d; EvGetElementById "responseChart";
       EvGetContext "2d"; EvNewChart (gc "2d") cfg] in
    updateResponseChart E d st =
      (match chart_throws E tr (gc "2d") cfg with
       | Some e => Throw e
       | None => Ok tt
       end, {| trace := tr; heap := heap st |}) /\
    Config.type cfg = "pie" /\
    labels (Config.data cfg) = ["Text Responses"; "Image Responses"] /\
    datasets (Config.data cfg) = [ds] /\
    Dataset.data ds = [v0; v1] /\
    Dataset.backgroundColor ds =
      ["rgba(255, 99, 132, 0.2)"; "rgba(255, 206, 86, 0.2)"] /\
    Dataset.borderColor ds =
      ["rgba(255, 99, 132, 1)"; "rgba(255, 206, 86, 1)"] /\
    Config.options cfg = None.
Proof.
  intros Hdoc H0 H1. do 2 eexists. cbv zeta.
  split.
  - unfold_js. rewrite Hdoc. simpl. rewrite H0, H1. simpl.
    rewrite <- !app_assoc. simpl. apply chart_outcome.
  - simpl. repeat split; reflexivity.
Qed.

Lemma emitted_app {A} (m : M A) st evs :
  trace (m st).2 = trace st ++ evs -> emitted m st = evs.
Proof. intros H. unfold emitted. rewrite H. apply drop_app_length. Qed.

(** C1. For every StatisticsSnapshot the payload deserializes to, and with
    the activity canvas in the page, updateActivityChart calls the Chart
    constructor exactly once, with type "bar", labels Posts, Replies,
    Mentions and the single data array post_count, reply_count,
    mention_count, in that order. *)
Theorem updateActivityChart_bar_chart E st d s gc :
  represents (heap st) d s ->
  document E !! "activityChart" = Some (Canvas gc) ->
  exists cfg,
    chart_calls (emitted (updateActivityChart E d) st) = [(gc "2d", cfg)] /\
    Config.type cfg = "bar" /\
    labels (Config.data cfg) = ["Posts"; "Replies"; "Mentions"] /\
    data_arrays cfg =
      [[VNum (post_count s); VNum (reply_count s); VNum (mention_count s)]].
Proof.
  intros (H0 & H1 & H2 & _) Hdoc.
  destruct (updateActivityChart_run E d st gc _ _ _ Hdoc H0 H1 H2)
    as (cfg & ds & Hrun & Hty & Hlab & Hds & Hdata & _).
  exists cfg. split; [| split; [done | split; [done |]]].
  - rewrite (emitted_app _ st _ (f_equal (fun p => trace p.2) Hrun)). reflexivity.
  - unfold data_arrays. rewrite Hds. simpl. by rewrite Hdata.
Qed.

(** With post_count=5, reply_count=3, mention_count=1 the data array is
    5, 3, 1. *)
Lemma updateActivityChart_bar_chart_5_3_1 :
  exists cfg,
    chart_calls (emitted (updateActivityChart env_5_3_1_7_2 (VRef 0%nat))
                   state_5_3_1_7_2)
      = [(Some (Context2D "activityChart"), cfg)] /\
    Config.type cfg = "bar" /\
    labels (Config.data cfg) = ["Posts"; "Replies"; "Mentions"] /\
    data_arrays cfg = [[VNum 5; VNum 3; VNum 1]].
Proof.
  apply (updateActivityChart_bar_chart env_5_3_1_7_2 state_5_3_1_7_2
           (VRef 0%nat) snapshot_5_3_1_7_2
           (context_of "activityChart")).
  - repeat split; vm_compute; reflexivity.
  - vm_compute; reflexivity.
Defined.

(** C2. For every StatisticsSnapshot the payload deserializes to, and with
    the response canvas in the page, updateResponseChart calls the Chart
    constructor exactly once, with type "pie", labels Text Responses, Image
    Responses and the single data array text_response_count,
    image_response_count, in that order. *)
Theorem updateResponseChart_pie_chart E st d s gc :
  represents (heap st) d s ->
  document E !! "responseChart" = Some (Canvas gc) ->
  exists cfg,
    chart_calls (emitted (updateResponseChart E d) st) = [(gc "2d", cfg)] /\
    Config.type cfg = "pie" /\
    labels (Config.data cfg) = ["Text Responses"; "Image Responses"] /\
    data_arrays cfg =
      [[VNum (text_response_count s); VNum (image_response_count s)]].
Proof.
  intros (_ & _ & _ & H0 & H1) Hdoc.
  destruct (updateResponseChart_run E d st gc _ _ Hdoc H0 H1)
    as (cfg & ds & Hrun & Hty & Hlab & Hds & Hdata & _).
  exists cfg. split; [| split; [done | split; [done |]]].
  - rewrite (emitted_app _ st _ (f_equal (fun p => trace p.2) Hrun)). reflexivity.
  - unfold data_arrays. rewrite Hds. simpl. by rewrite Hdata.
Qed.

(** With text_response_count=7, image_response_count=2 the data array is
    7, 2. *)
Lemma updateResponseChart_pie_chart_7_2 :
  exists cfg,
    chart_calls (emitted (updateResponseChart env_5_3_1_7_2 (VRef 0%nat))
                   state_5_3_1_7_2)
      = [(Some (Context2D "responseChart"), cfg)] /\
    Config.type cfg = "pie" /\
    labels (Config.data cfg) = ["Text Responses"; "Image Responses"] /\
    data_arrays cfg = [[VNum 7; VNum 2]].
Proof.
  apply (updateResponseChart_pie_chart env_5_3_1_7_2 state_5_3_1_7_2
           (VRef 0%nat) snapshot_5_3_1_7_2
           (context_of "responseChart")).
  - repeat split; vm_compute; reflexivity.
  - vm_compute; reflexivity.
Defined.

(** ** One page load *)

Lemma calls_of_app fn (tr1 tr2 : list event) :
  calls_of fn (tr1 ++ tr2) = (calls_of fn tr1 + calls_of fn tr2)%nat.
Proof.
  induction tr1 as [| ev tr1 IH]; [reflexivity |].
  destruct ev; simpl; rewrite IH; try reflexivity.
  by rewrite Nat.add_assoc.
Qed.

(** Once the body is parsed, what is left of the listener is its second
    callback, applied to the parsed value. *)
Lemma DOMContentLoaded_parsed E st r d objs :
  network E "/api/stats" = Fulfilled r ->
  json r = Fulfilled (d, objs) ->
  DOMContentLoaded E st =
    then_ (Fulfilled d)
      (fun data =>
         updateActivityChart E data ;;;
         updateResponseChart E data ;;;
         ret (Fulfilled VUndefined))
      (after_parse st objs).
Proof.
  intros Hnet Hjson. unfold DOMContentLoaded, after_parse.
  unfold bind at 1. unfold fetch, bind, emit, ret. simpl. rewrite Hnet.
  unfold then_ at 2. unfold response_json, bind, emit, alloc, ret. simpl.
  rewrite Hjson. simpl. by rewrite <- app_assoc.
Qed.

(** C3. If the fetch of /api/stats rejects, or the body does not parse as
    JSON, the load does nothing more: its events are the request alone, or
    the request and the parse, so that no function of the script is entered
    after the failure, neither a render routine nor a handler of the
    failure, and the constructor is not called; the heap is as before; and
    the chain ends rejected with the very reason of the failure, which
    nothing has observed. *)
Theorem failed_load_renders_nothing E st e :
  network E "/api/stats" = Rejected e \/
  (exists r, network E "/api/stats" = Fulfilled r /\ json r = Rejected e) ->
  DOMContentLoaded E st =
    (Ok (Rejected e),
     {| trace := trace st ++
          match network E "/api/stats" with
          | Rejected _ => [EvFetch "/api/stats"]
          | Fulfilled _ => [EvFetch "/api/stats"; EvJson]
          end;
        heap := heap st |}) /\
  emitted (DOMContentLoaded E) st =
    match network E "/api/stats" with
    | Rejected _ => [EvFetch "/api/stats"]
    | Fulfilled _ => [EvFetch "/api/stats"; EvJson]
    end /\
  (forall fn, calls_of fn (emitted (DOMContentLoaded E) st) = 0%nat) /\
  calls_of "updateActivityChart" (emitted (DOMContentLoaded E) st) = 0%nat /\
  calls_of "updateResponseChart" (emitted (DOMContentLoaded E) st) = 0%nat /\
  chart_calls (emitted (DOMContentLoaded E) st) = [] /\
  (DOMContentLoaded E st).1 = Ok (Rejected e) /\
  unhandled_rejection (DOMContentLoaded E st).1 = Some e.
Proof.
  intros [Hnet | (r & Hnet & Hjson)].
  - assert (Hrun : DOMContentLoaded E st =
        (Ok (Rejected e),
         {| trace := trace st ++ [EvFetch "/api/stats"]; heap := heap st |})).
    { unfold DOMContentLoaded, fetch, bind, emit, ret, then_. simpl.
      by rewrite Hnet. }
    rewrite (emitted_app _ st [EvFetch "/api/stats"]) by by rewrite Hrun.
    rewrite Hrun, Hnet. by repeat split.
  - assert (Hrun : DOMContentLoaded E st =
        (Ok (Rejected e),
         {| trace := trace st ++ [EvFetch "/api/stats"; EvJson];
            heap := heap st |})).
    { unfold DOMContentLoaded, fetch, response_json, bind, emit, ret, then_.
      simpl. rewrite Hnet, Hjson. simpl. by rewrite <- app_assoc. }
    rewrite (emitted_app _ st [EvFetch "/api/stats"; EvJson]) by by rewrite Hrun.
    rewrite Hrun, Hnet. by repeat split.
Qed.

(** The two failures on a page that has both surfaces.  The server is down:
    the load is the request and nothing else.  The body is not JSON: the
    load is the request and the parse and nothing else. *)
Lemma failed_load_renders_nothing_down_or_garbage :
  (DOMContentLoaded env_down state0 =
     (Ok (Rejected (TypeError "Failed to fetch")),
      {| trace := [EvFetch "/api/stats"]; heap := ∅ |}) /\
   chart_calls (emitted (DOMContentLoaded env_down) state0) = [] /\
   unhandled_rejection (DOMContentLoaded env_down state0).1
     = Some (TypeError "Failed to fetch")) /\
  (DOMContentLoaded env_garbage state0 =
     (Ok (Rejected (SyntaxError "Unexpected token < in JSON")),
      {| trace := [EvFetch "/api/stats"; EvJson]; heap := ∅ |}) /\
   chart_calls (emitted (DOMContentLoaded env_garbage) state0) = [] /\
   unhandled_rejection (DOMContentLoaded env_garbage state0).1
     = Some (SyntaxError "Unexpected token < in JSON")).
Proof.
  split.
  - destruct (failed_load_renders_nothing env_down state0
                (TypeError "Failed to fetch") (or_introl eq_refl))
      as (Hrun & _ & _ & _ & _ & Hcharts & _ & Hleft).
    exact (conj Hrun (conj Hcharts Hleft)).
  - destruct (failed_load_renders_nothing env_garbage state0
                (SyntaxError "Unexpected token < in JSON")
                (or_intror (ex_intro _ _ (conj eq_refl eq_refl))))
      as (Hrun & _ & _ & _ & _ & Hcharts & _ & Hleft).
    exact (conj Hrun (conj Hcharts Hleft)).
Defined.

(** A page load that goes well: the body parses to a snapshot, both surfaces
    are in the page and the library renders.  The events of the load are the
    request, the parse, the four steps of updateActivityChart and the four
    steps of updateResponseChart, and the chain ends fulfilled. *)
Lemma DOMContentLoaded_renders E st r d objs s gcA gcR :
  network E "/api/stats" = Fulfilled r ->
  json r = Fulfilled (d, objs) ->
  represents (objs ∪ heap st) d s ->
  surfaces E gcA gcR ->
  library_renders E ->
  exists cfgA cfgR,
    emitted (DOMContentLoaded E) st =
      [EvFetch "/api/stats"; EvJson;
       EvCall "updateActivityChart" d; EvGetElementById "activityChart";
       EvGetContext "2d"; EvNewChart (gcA "2d") cfgA;
       EvCall "updateResponseChart" d; EvGetElementById "responseChart";
       EvGetContext "2d"; EvNewChart (gcR "2d") cfgR] /\
    (DOMContentLoaded E st).1 = Ok (Fulfilled VUndefined) /\
    Config.type cfgA = "bar" /\ Config.type cfgR = "pie" /\
    data_arrays cfgA =
      [[VNum (post_count s); VNum (reply_count s); VNum (mention_count s)]] /\
    data_arrays cfgR =
      [[VNum (text_response_count s); VNum (image_response_count s)]].
Proof.
  intros Hnet Hjson (H0 & H1 & H2 & H3 & H4) [HdocA HdocR] Hlib.
  destruct (updateActivityChart_run E d (after_parse st objs) gcA _ _ _
              HdocA H0 H1 H2)
    as (cfgA & dsA & HrunA & HtyA & _ & HdsA & HdataA & _).
  cbv zeta in HrunA. rewrite Hlib in HrunA.
  set (stA := {| trace := _; heap := _ |}) in HrunA.
  destruct (updateResponseChart_run E d stA gcR _ _ HdocR H3 H4)
    as (cfgR & dsR & HrunR & HtyR & _ & HdsR & HdataR & _).
  cbv zeta in HrunR. rewrite Hlib in HrunR.
  exists cfgA, cfgR.
  assert (Hrun : DOMContentLoaded E st =
    (Ok (Fulfilled VUndefined),
     {| trace := trace st ++
          [EvFetch "/api/stats"; EvJson;
           EvCall "updateActivityChart" d; EvGetElementById "activityChart";
           EvGetContext "2d"; EvNewChart (gcA "2d") cfgA;
           EvCall "updateResponseChart" d; EvGetElementById "responseChart";
           EvGetContext "2d"; EvNewChart (gcR "2d") cfgR];
        heap := objs ∪ heap st |})).
  { rewrite (DOMContentLoaded_parsed E st r d objs Hnet Hjson).
    unfold then_, bind at 1. rewrite HrunA.
    unfold bind at 1. rewrite HrunR. unfold ret, stA. simpl.
    by rewrite <- !app_assoc. }
  split; [| split; [by rewrite Hrun | do 2 (split; [done |]); split]].
  - apply emitted_app. by rewrite Hrun.
  - unfold data_arrays. rewrite HdsA. simpl. by rewrite HdataA.
  - unfold data_arrays. rewrite HdsR. simpl. by rewrite HdataR.
Qed.

(** C4. On a page load whose fetch and parse succeed, with the page and the
    library as the script expects them, the events are exactly: the request,
    the parse, one run of updateActivityChart, then one run of
    updateResponseChart.  Each routine is entered exactly once, the activity
    one first, and nothing is repeated. *)
Theorem load_renders_once_in_order E st r d objs s gcA gcR :
  network E "/api/stats" = Fulfilled r ->
  json r = Fulfilled (d, objs) ->
  represents (objs ∪ heap st) d s ->
  surfaces E gcA gcR ->
  library_renders E ->
  exists cfgA cfgR,
    emitted (DOMContentLoaded E) st =
      [EvFetch "/api/stats"; EvJson;
       EvCall "updateActivityChart" d; EvGetElementById "activityChart";
       EvGetContext "2d"; EvNewChart (gcA "2d") cfgA;
       EvCall "updateResponseChart" d; EvGetElementById "responseChart";
       EvGetContext "2d"; EvNewChart (gcR "2d") cfgR] /\
    Config.type cfgA = "bar" /\ Config.type cfgR = "pie" /\
    calls_of "updateActivityChart" (emitted (DOMContentLoaded E) st) = 1%nat /\
    calls_of "updateResponseChart" (emitted (DOMContentLoaded E) st) = 1%nat /\
    length (chart_calls (emitted (DOMContentLoaded E) st)) = 2%nat.
Proof.
  intros Hnet Hjson Hs Hsurf Hlib.
  destruct (DOMContentLoaded_renders E st r d objs s gcA gcR
              Hnet Hjson Hs Hsurf Hlib)
    as (cfgA & cfgR & Hev & _ & HtyA & HtyR & _).
  exists cfgA, cfgR. rewrite Hev.
  split; [reflexivity | split; [exact HtyA | split; [exact HtyR |]]].
  repeat split; reflexivity.
Qed.

Lemma load_renders_once_in_order_5_3_1_7_2 :
  exists cfgA cfgR,
    emitted (DOMContentLoaded env_5_3_1_7_2) state0 =
      [EvFetch "/api/stats"; EvJson;
       EvCall "updateActivityChart" (VRef 0%nat);
       EvGetElementById "activityChart"; EvGetContext "2d";
       EvNewChart (Some (Context2D "activityChart")) cfgA;
       EvCall "updateResponseChart" (VRef 0%nat);
       EvGetElementById "responseChart"; EvGetContext "2d";
       EvNewChart (Some (Context2D "responseChart")) cfgR] /\
    Config.type cfgA = "bar" /\ Config.type cfgR = "pie" /\
    calls_of "updateActivityChart"
      (emitted (DOMContentLoaded env_5_3_1_7_2) state0) = 1%nat /\
    calls_of "updateResponseChart"
      (emitted (DOMContentLoaded env_5_3_1_7_2) state0) = 1%nat /\
    length (chart_calls (emitted (DOMContentLoaded env_5_3_1_7_2) state0))
      = 2%nat.
Proof.
  apply (load_renders_once_in_order env_5_3_1_7_2 state0
           {| json := Fulfilled (VRef 0%nat,
                                 {[ 0%nat := snapshot_obj snapshot_5_3_1_7_2 ]}) |}
           (VRef 0%nat) {[ 0%nat := snapshot_obj snapshot_5_3_1_7_2 ]}
           snapshot_5_3_1_7_2
           (context_of "activityChart") (context_of "responseChart")).
  - reflexivity.
  - reflexivity.
  - repeat split; vm_compute; reflexivity.
  - split; vm_compute; reflexivity.
  - intros tr ctx cfg. reflexivity.
Defined.

(** C6. For the all-zero snapshot both charts are drawn: the load makes two
    constructor calls, the first with the data array 0, 0, 0 and the second
    with 0, 0. *)
Theorem zero_snapshot_renders_both E st r d objs gcA gcR :
  network E "/api/stats" = Fulfilled r ->
  json r = Fulfilled (d, objs) ->
  represents (objs ∪ heap st) d snapshot_zero ->
  surfaces E gcA gcR ->
  library_renders E ->
  exists cfgA cfgR,
    chart_calls (emitted (DOMContentLoaded E) st)
      = [(gcA "2d", cfgA); (gcR "2d", cfgR)] /\
    Config.type cfgA = "bar" /\
    data_arrays cfgA = [[VNum 0; VNum 0; VNum 0]] /\
    Config.type cfgR = "pie" /\
    data_arrays cfgR = [[VNum 0; VNum 0]].
Proof.
  intros Hnet Hjson Hs Hsurf Hlib.
  destruct (DOMContentLoaded_renders E st r d objs snapshot_zero gcA gcR
              Hnet Hjson Hs Hsurf Hlib)
    as (cfgA & cfgR & Hev & _ & HtyA & HtyR & HdA & HdR).
  exists cfgA, cfgR. rewrite Hev. simpl in HdA, HdR. by repeat split.
Qed.

Lemma zero_snapshot_renders_both_page_full :
  exists cfgA cfgR,
    chart_calls (emitted (DOMContentLoaded env_zero) state0)
      = [(Some (Context2D "activityChart"), cfgA);
         (Some (Context2D "responseChart"), cfgR)] /\
    Config.type cfgA = "bar" /\
    data_arrays cfgA = [[VNum 0; VNum 0; VNum 0]] /\
    Config.type cfgR = "pie" /\
    data_arrays cfgR = [[VNum 0; VNum 0]].
Proof.
  apply (zero_snapshot_renders_both env_zero state0
           {| json := Fulfilled (VRef 0%nat,
                                 {[ 0%nat := snapshot_obj snapshot_zero ]}) |}
           (VRef 0%nat) {[ 0%nat := snapshot_obj snapshot_zero ]}
           (context_of "activityChart") (context_of "responseChart")).
  - reflexivity.
  - reflexivity.
  - repeat split; vm_compute; reflexivity.
  - split; vm_compute; reflexivity.
  - intros tr ctx cfg. reflexivity.
Defined.

(** ** When the first render throws *)

(** Whatever the page, the payload and the library do, a run of
    updateActivityChart adds its own entry to the trace and then only DOM and
    constructor calls, and leaves the heap alone. *)
Lemma updateActivityChart_events E d st :
  exists evs,
    trace (updateActivityChart E d st).2
      = trace st ++ EvCall "updateActivityChart" d :: evs /\
    (forall fn, calls_of fn evs = 0%nat) /\
    heap (updateActivityChart E d st).2 = heap st.
Proof.
  unfold_js.
  destruct (document E !! "activityChart") as [[gc |] |]; simpl;
    [ destruct (get_prop (heap st) d "post_count"); simpl;
      [ destruct (get_prop (heap st) d "reply_count"); simpl;
        [ destruct (get_prop (heap st) d "mention_count"); simpl;
          [ destruct (chart_throws E _ _ _); simpl | ] | ] | ] | | ];
    rewrite <- ?app_assoc; simpl;
    eexists; (split; [reflexivity | split; [intros fn; reflexivity | reflexivity]]).
Qed.

(** C10. If updateActivityChart throws, for whatever reason, the load never
    enters updateResponseChart: the exception rejects the promise of the
    chain, which ends there.  Nothing is asked of the page, so this holds
    also when the response surface is in it. *)
Theorem activity_failure_blocks_response E st r d objs e st' :
  network E "/api/stats" = Fulfilled r ->
  json r = Fulfilled (d, objs) ->
  updateActivityChart E d (after_parse st objs) = (Throw e, st') ->
  DOMContentLoaded E st = (Ok (Rejected e), st') /\
  calls_of "updateActivityChart" (emitted (DOMContentLoaded E) st) = 1%nat /\
  calls_of "updateResponseChart" (emitted (DOMContentLoaded E) st) = 0%nat.
Proof.
  intros Hnet Hjson Hthrow.
  assert (Hrun : DOMContentLoaded E st = (Ok (Rejected e), st')).
  { rewrite (DOMContentLoaded_parsed E st r d objs Hnet Hjson).
    unfold then_, bind at 1. by rewrite Hthrow. }
  split; [exact Hrun |].
  destruct (updateActivityChart_events E d (after_parse st objs))
    as (evs & Htr & Hnone & _).
  rewrite Hthrow in Htr. simpl in Htr.
  assert (Hem : emitted (DOMContentLoaded E) st =
                [EvFetch "/api/stats"; EvJson]
                  ++ EvCall "updateActivityChart" d :: evs).
  { apply emitted_app. rewrite Hrun. simpl. rewrite Htr.
    by rewrite <- app_assoc. }
  rewrite Hem, !calls_of_app. simpl. by rewrite !Hnone.
Qed.

(** The page lacks the activity surface and has the response one: the
    element lookup gives null, reading getContext of it throws, and
    updateResponseChart is not entered. *)
Lemma activity_failure_blocks_response_no_surface :
  document env_no_activity !! "responseChart"
    = Some (canvas2d "responseChart") /\
  (DOMContentLoaded env_no_activity state0).1
    = Ok (Rejected (TypeError "Cannot read properties of null")) /\
  calls_of "updateActivityChart"
    (emitted (DOMContentLoaded env_no_activity) state0) = 1%nat /\
  calls_of "updateResponseChart"
    (emitted (DOMContentLoaded env_no_activity) state0) = 0%nat.
Proof.
  split; [vm_compute; reflexivity |].
  destruct (activity_failure_blocks_response env_no_activity state0
              {| json := Fulfilled (VRef 0%nat,
                           {[ 0%nat := snapshot_obj snapshot_5_3_1_7_2 ]}) |}
              (VRef 0%nat) {[ 0%nat := snapshot_obj snapshot_5_3_1_7_2 ]}
              (TypeError "Cannot read properties of null")
              (updateActivityChart env_no_activity (VRef 0%nat)
                 (after_parse state0
                    {[ 0%nat := snapshot_obj snapshot_5_3_1_7_2 ]})).2
              eq_refl eq_refl)
    as (Hrun & HA & HR).
  - vm_compute; reflexivity.
  - rewrite Hrun. by repeat split.
Defined.

(** ** Rendering again *)

(** Both routines are built from quiet steps followed by one constructor
    call, so they are steady; the rules below say how that is preserved. *)

Section Steady.
Context {A B : Type}.

Lemma quiet_ret (a : A) : quiet (ret a).
Proof.
  exists (fun _ => (Ok a, [])). intros [tr h]. unfold ret. simpl.
  by rewrite app_nil_r.
Qed.

Lemma quiet_throw (e : exn) : quiet (@throw A e).
Proof.
  exists (fun _ => (Throw e, [])). intros [tr h]. unfold throw. simpl.
  by rewrite app_nil_r.
Qed.

Lemma quiet_lift (r : heap_t -> result A) :
  quiet (bind get_heap (fun h => lift (r h))).
Proof.
  exists (fun h => (r h, [])). intros [tr h]. unfold bind, get_heap, lift.
  simpl. by rewrite app_nil_r.
Qed.

Lemma quiet_bind (m : M A) (k : A -> M B) :
  quiet m -> (forall a, quiet (k a)) -> quiet (bind m k).
Proof.
  intros [om Hm] Hk.
  exists (fun h =>
    match (om h).1 with
    | Ok a =>
        let o := k a {| trace := (om h).2; heap := h |} in
        (o.1, (om h).2 ++ drop (length (om h).2) (trace o.2))
    | Throw e => (Throw e, (om h).2)
    end).
  intros st. unfold bind. rewrite Hm.
  destruct (om (heap st)) as [[a | e] evs]; simpl; [| reflexivity].
  destruct (Hk a) as [ok Hka]. rewrite !Hka. simpl.
  by rewrite drop_app_length, app_assoc.
Qed.

Lemma quiet_steady (m : M A) : quiet m -> steady m.
Proof.
  intros [om Hm]. exists (fun h => (om h).2). intros st. by rewrite Hm.
Qed.

Lemma steady_bind (m : M A) (k : A -> M B) :
  quiet m -> (forall a, steady (k a)) -> steady (bind m k).
Proof.
  intros [om Hm] Hk.
  exists (fun h =>
    match (om h).1 with
    | Ok a =>
        (om h).2 ++
        drop (length (om h).2) (trace (k a {| trace := (om h).2; heap := h |}).2)
    | Throw e => (om h).2
    end).
  intros st. unfold bind. rewrite Hm.
  destruct (om (heap st)) as [[a | e] evs]; simpl; [| done].
  destruct (Hk a) as [ek Hka].
  destruct (Hka {| trace := trace st ++ evs; heap := heap st |}) as [-> ->].
  destruct (Hka {| trace := evs; heap := heap st |}) as [-> _].
  simpl. by rewrite drop_app_length, app_assoc.
Qed.
End Steady.

Lemma quiet_emit ev : quiet (emit ev).
Proof. by exists (fun _ => (Ok tt, [ev])). Qed.

Lemma quiet_getElementById E id : quiet (getElementById E id).
Proof.
  apply quiet_bind; [apply quiet_emit | intros _; apply quiet_ret].
Qed.

Lemma quiet_getContext el kind : quiet (getContext el kind).
Proof.
  destruct el as [[gc |] |]; simpl; try apply quiet_throw.
  apply quiet_bind; [apply quiet_emit | intros _; apply quiet_ret].
Qed.

Lemma quiet_prop d k : quiet (prop d k).
Proof. apply (quiet_lift (fun h => get_prop h d k)). Qed.

Lemma steady_Chart E ctx cfg : steady (Chart E ctx cfg).
Proof.
  exists (fun _ => [EvNewChart ctx cfg]). intros st. unfold_js.
  by destruct (chart_throws E _ _ _).
Qed.

Create HintDb steady.
#[local] Hint Resolve quiet_emit quiet_getElementById quiet_getContext
  quiet_prop steady_Chart : steady.
#[local] Hint Extern 2 (steady (bind _ _)) =>
  apply steady_bind; [| intros ?] : steady.

Lemma steady_updateActivityChart E d : steady (updateActivityChart E d).
Proof. unfold updateActivityChart. auto 10 with steady. Qed.

Lemma steady_updateResponseChart E d : steady (updateResponseChart E d).
Proof. unfold updateResponseChart. auto 10 with steady. Qed.

(** What a steady computation emits is the same from any two states that
    hold the same heap. *)
Lemma steady_emitted {A} (m : M A) st st' :
  steady m -> heap st = heap st' -> emitted m st = emitted m st'.
Proof.
  intros [evs Hm] Hh.
  rewrite (emitted_app m st (evs (heap st))) by apply Hm.
  rewrite (emitted_app m st' (evs (heap st'))) by apply Hm.
  by rewrite Hh.
Qed.

Lemma steady_heap {A} (m : M A) st : steady m -> heap (m st).2 = heap st.
Proof. intros [evs Hm]. apply Hm. Qed.

(** C5. Rendering again with the same payload: a second run of
    updateActivityChart, started where the first one ended, calls the
    constructor with the same arguments as the first, makes the same calls
    altogether, and neither run changes the heap, so the payload is as it
    was; the same holds of updateResponseChart.  This is so whether or not
    the first run threw. *)
Theorem render_again_same_arguments E d st :
  let stA := (updateActivityChart E d st).2 in
  let stR := (updateResponseChart E d st).2 in
  (emitted (updateActivityChart E d) stA = emitted (updateActivityChart E d) st /\
   chart_calls (emitted (updateActivityChart E d) stA)
     = chart_calls (emitted (updateActivityChart E d) st) /\
   heap stA = heap st /\
   heap (updateActivityChart E d stA).2 = heap st) /\
  (emitted (updateResponseChart E d) stR = emitted (updateResponseChart E d) st /\
   chart_calls (emitted (updateResponseChart E d) stR)
     = chart_calls (emitted (updateResponseChart E d) st) /\
   heap stR = heap st /\
   heap (updateResponseChart E d stR).2 = heap st).
Proof.
  intros stA stR.
  pose proof (steady_updateActivityChart E d) as HA.
  pose proof (steady_updateResponseChart E d) as HR.
  assert (HhA : heap stA = heap st) by apply (steady_heap _ st HA).
  assert (HhR : heap stR = heap st) by apply (steady_heap _ st HR).
  assert (HeA := steady_emitted _ stA st HA HhA).
  assert (HeR := steady_emitted _ stR st HR HhR).
  split; (split; [done | split; [by f_equal | split; [done |]]]).
  - by rewrite (steady_heap _ stA HA).
  - by rewrite (steady_heap _ stR HR).
Qed.

(** ** The options and the palette of the activity chart *)

(** C7. For every StatisticsSnapshot, the configuration of the activity
    chart sets options.scales.y.beginAtZero to true, and its one dataset
    gives the three categories three background and three border colours,
    the literals of the script, no two of them equal. *)
Theorem activity_chart_axis_and_palette E st d s gc :
  represents (heap st) d s ->
  document E !! "activityChart" = Some (Canvas gc) ->
  exists cfg ds o,
    chart_calls (emitted (updateActivityChart E d) st) = [(gc "2d", cfg)] /\
    Config.options cfg = Some o /\
    beginAtZero (y (scales o)) = true /\
    datasets (Config.data cfg) = [ds] /\
    Dataset.backgroundColor ds =
      ["rgba(75, 192, 192, 0.2)"; "rgba(54, 162, 235, 0.2)";
       "rgba(153, 102, 255, 0.2)"] /\
    Dataset.borderColor ds =
      ["rgba(75, 192, 192, 1)"; "rgba(54, 162, 235, 1)";
       "rgba(153, 102, 255, 1)"] /\
    NoDup (Dataset.backgroundColor ds) /\
    NoDup (Dataset.borderColor ds) /\
    length (Dataset.backgroundColor ds) = length (labels (Config.data cfg)) /\
    length (Dataset.borderColor ds) = length (labels (Config.data cfg)).
Proof.
  intros (H0 & H1 & H2 & _) Hdoc.
  destruct (updateActivityChart_run E d st gc _ _ _ Hdoc H0 H1 H2)
    as (cfg & ds & Hrun & _ & Hlab & Hds & _ & Hbg & Hbd & Hopt).
  exists cfg, ds, {| scales := {| y := {| beginAtZero := true |} |} |}.
  rewrite (emitted_app _ st _ (f_equal (fun p => trace p.2) Hrun)).
  rewrite Hbg, Hbd, Hlab.
  repeat split; try done.
  - apply (bool_decide_unpack _). by vm_compute.
  - apply (bool_decide_unpack _). by vm_compute.
Qed.

Lemma activity_chart_axis_and_palette_5_3_1 :
  exists cfg ds o,
    chart_calls (emitted (updateActivityChart env_5_3_1_7_2 (VRef 0%nat))
                   state_5_3_1_7_2)
      = [(Some (Context2D "activityChart"), cfg)] /\
    Config.options cfg = Some o /\
    beginAtZero (y (scales o)) = true /\
    datasets (Config.data cfg) = [ds] /\
    Dataset.backgroundColor ds =
      ["rgba(75, 192, 192, 0.2)"; "rgba(54, 162, 235, 0.2)";
       "rgba(153, 102, 255, 0.2)"] /\
    Dataset.borderColor ds =
      ["rgba(75, 192, 192, 1)"; "rgba(54, 162, 235, 1)";
       "rgba(153, 102, 255, 1)"] /\
    NoDup (Dataset.backgroundColor ds) /\
    NoDup (Dataset.borderColor ds) /\
    length (Dataset.backgroundColor ds) = length (labels (Config.data cfg)) /\
    length (Dataset.borderColor ds) = length (labels (Config.data cfg)).
Proof.
  apply (activity_chart_axis_and_palette env_5_3_1_7_2 state_5_3_1_7_2
           (VRef 0%nat) snapshot_5_3_1_7_2 (context_of "activityChart")).
  - repeat split; vm_compute; reflexivity.
  - vm_compute; reflexivity.
Defined.

(** ** No defaulting, no validation *)

(** A property read throws on null and undefined only. *)
Lemma get_prop_defined h d k :
  is_json d = true -> d <> VNull -> exists v, get_prop h d k = Ok v.
Proof.
  intros Hjson Hnull. destruct d; simpl; try done; eauto.
  destruct (h !! l); eauto.
Qed.

(** C8, as the script has it.  For every parsed value other than null, and
    with both surfaces in the page, each routine makes its constructor call
    and the data arrays hold exactly what the five property reads give,
    whatever that is: a negative number, a string, undefined for an absent
    property.  Nothing is checked and nothing is filled in. *)
Theorem non_null_payload_passes_through E d st gcA gcR :
  is_json d = true ->
  d <> VNull ->
  surfaces E gcA gcR ->
  passes_fields_through E d st.
Proof.
  intros Hjson Hnull [HdocA HdocR].
  destruct (get_prop_defined (heap st) d "post_count" Hjson Hnull) as [v0 H0].
  destruct (get_prop_defined (heap st) d "reply_count" Hjson Hnull) as [v1 H1].
  destruct (get_prop_defined (heap st) d "mention_count" Hjson Hnull) as [v2 H2].
  destruct (get_prop_defined (heap st) d "text_response_count" Hjson Hnull)
    as [v3 H3].
  destruct (get_prop_defined (heap st) d "image_response_count" Hjson Hnull)
    as [v4 H4].
  destruct (updateActivityChart_run E d st gcA _ _ _ HdocA H0 H1 H2)
    as (cfgA & dsA & HrunA & _ & _ & HdsA & HdataA & _).
  destruct (updateResponseChart_run E d st gcR _ _ HdocR H3 H4)
    as (cfgR & dsR & HrunR & _ & _ & HdsR & HdataR & _).
  exists (gcA "2d"), cfgA, (gcR "2d"), cfgR, v0, v1, v2, v3, v4.
  rewrite (emitted_app _ st _ (f_equal (fun p => trace p.2) HrunA)).
  rewrite (emitted_app _ st _ (f_equal (fun p => trace p.2) HrunR)).
  unfold data_arrays. rewrite HdsA, HdsR. simpl. rewrite HdataA, HdataR.
  by repeat split.
Qed.

(** The odd payload goes through as it is. *)
Lemma non_null_payload_passes_through_odd :
  passes_fields_through env_5_3_1_7_2 (VRef 0%nat) state_odd /\
  (data_arrays ∘ snd) <$>
     chart_calls (emitted (updateActivityChart env_5_3_1_7_2 (VRef 0%nat))
                    state_odd)
    = [[[VNum (-4); VStr "many"; VUndefined]]] /\
  (data_arrays ∘ snd) <$>
     chart_calls (emitted (updateResponseChart env_5_3_1_7_2 (VRef 0%nat))
                    state_odd)
    = [[[VNull; VBool true]]].
Proof.
  split; [| split; vm_compute; reflexivity].
  apply (non_null_payload_passes_through env_5_3_1_7_2 (VRef 0%nat) state_odd
           (context_of "activityChart") (context_of "responseChart")).
  - reflexivity.
  - discriminate.
  - split; vm_compute; reflexivity.
Defined.

(** C8, as the claim has it, fails for the parsed value null: with both
    surfaces in the page, reading post_count of null throws before the
    constructor is reached, in either routine, so no constructor call is
    made and the load ends in an unhandled TypeError. *)
Lemma null_payload_reaches_no_constructor :
  is_json VNull = true /\
  surfaces env_null (context_of "activityChart") (context_of "responseChart") /\
  chart_calls (emitted (updateActivityChart env_null VNull) state0) = [] /\
  chart_calls (emitted (updateResponseChart env_null VNull) state0) = [] /\
  chart_calls (emitted (DOMContentLoaded env_null) state0) = [] /\
  unhandled_rejection (DOMContentLoaded env_null state0).1
    = Some (TypeError "Cannot read properties of null") /\
  ~ passes_fields_through env_null VNull state0.
Proof.
  split; [reflexivity |].
  split; [split; vm_compute; reflexivity |].
  do 4 (split; [vm_compute; reflexivity |]).
  intros (ctxA & cfgA & ctxR & cfgR & v0 & v1 & v2 & v3 & v4 & HA & _).
  vm_compute in HA. discriminate HA.
Qed.

(** ** The two charts do not interfere *)

Lemma updateResponseChart_reads_only E st1 st2 d1 d2 :
  get_prop (heap st1) d1 "text_response_count"
    = get_prop (heap st2) d2 "text_response_count" ->
  get_prop (heap st1) d1 "image_response_count"
    = get_prop (heap st2) d2 "image_response_count" ->
  chart_calls (emitted (updateResponseChart E d1) st1)
    = chart_calls (emitted (updateResponseChart E d2) st2).
Proof.
  intros H0 H1. unfold emitted. unfold_js.
  destruct (document E !! "responseChart") as [[gc |] |]; simpl;
    [ rewrite H0, H1;
      destruct (get_prop (heap st2) d2 "text_response_count"); simpl;
      [ destruct (get_prop (heap st2) d2 "image_response_count"); simpl;
        [ do 2 destruct (chart_throws E _ _ _); simpl | ] | ] | | ];
    rewrite <- ?app_assoc, ?drop_app_length; reflexivity.
Qed.

Lemma updateActivityChart_reads_only E st1 st2 d1 d2 :
  get_prop (heap st1) d1 "post_count" = get_prop (heap st2) d2 "post_count" ->
  get_prop (heap st1) d1 "reply_count" = get_prop (heap st2) d2 "reply_count" ->
  get_prop (heap st1) d1 "mention_count"
    = get_prop (heap st2) d2 "mention_count" ->
  chart_calls (emitted (updateActivityChart E d1) st1)
    = chart_calls (emitted (updateActivityChart E d2) st2).
Proof.
  intros H0 H1 H2. unfold emitted. unfold_js.
  destruct (document E !! "activityChart") as [[gc |] |]; simpl;
    [ rewrite H0, H1, H2;
      destruct (get_prop (heap st2) d2 "post_count"); simpl;
      [ destruct (get_prop (heap st2) d2 "reply_count"); simpl;
        [ destruct (get_prop (heap st2) d2 "mention_count"); simpl;
          [ do 2 destruct (chart_throws E _ _ _); simpl | ] | ] | ] | | ];
    rewrite <- ?app_assoc, ?drop_app_length; reflexivity.
Qed.

(** C9. The constructor calls of updateResponseChart are the same for any
    two payloads that read alike on text_response_count and
    image_response_count, whatever their other properties; those of
    updateActivityChart are the same for any two payloads that read alike on
    post_count, reply_count and mention_count. *)
Theorem charts_do_not_interfere E st1 st2 d1 d2 :
  (agree_on ["text_response_count"; "image_response_count"]
     (heap st1) d1 (heap st2) d2 ->
   chart_calls (emitted (updateResponseChart E d1) st1)
     = chart_calls (emitted (updateResponseChart E d2) st2)) /\
  (agree_on ["post_count"; "reply_count"; "mention_count"]
     (heap st1) d1 (heap st2) d2 ->
   chart_calls (emitted (updateActivityChart E d1) st1)
     = chart_calls (emitted (updateActivityChart E d2) st2)).
Proof.
  split; intros Hagree; unfold agree_on in Hagree.
  - inversion Hagree as [| k0 ks0 H0 Hrest]; subst.
    inversion Hrest as [| k1 ks1 H1 _]; subst.
    by apply updateResponseChart_reads_only.
  - inversion Hagree as [| k0 ks0 H0 Hrest]; subst.
    inversion Hrest as [| k1 ks1 H1 Hrest']; subst.
    inversion Hrest' as [| k2 ks2 H2 _]; subst.
    by apply updateActivityChart_reads_only.
Qed.

(** Two runs that differ in the activity counts only draw the same response
    chart; two runs that differ in the response counts only draw the same
    activity chart. *)
Lemma charts_do_not_interfere_snapshots :
  chart_calls (emitted (updateResponseChart env_5_3_1_7_2 (VRef 0%nat))
                 (state_of snapshot_5_3_1_7_2))
    = chart_calls (emitted (updateResponseChart env_5_3_1_7_2 (VRef 0%nat))
                     (state_of snapshot_50_30_10_7_2)) /\
  chart_calls (emitted (updateActivityChart env_5_3_1_7_2 (VRef 0%nat))
                 (state_of snapshot_5_3_1_7_2))
    = chart_calls (emitted (updateActivityChart env_5_3_1_7_2 (VRef 0%nat))
                     (state_of snapshot_5_3_1_70_20)).
Proof.
  split.
  - apply (proj1 (charts_do_not_interfere env_5_3_1_7_2
                    (state_of snapshot_5_3_1_7_2)
                    (state_of snapshot_50_30_10_7_2)
                    (VRef 0%nat) (VRef 0%nat))).
    repeat (apply List.Forall_cons; [vm_compute; reflexivity |]).
    apply List.Forall_nil.
  - apply (proj2 (charts_do_not_interfere env_5_3_1_7_2
                    (state_of snapshot_5_3_1_7_2)
                    (state_of snapshot_5_3_1_70_20)
                    (VRef 0%nat) (VRef 0%nat))).
    repeat (apply List.Forall_cons; [vm_compute; reflexivity |]).
    apply List.Forall_nil.
Defined.

(** * Further properties of the script *)

(** ** Every run is a prefix of the full sequence *)

(** A run of updateActivityChart does the first two, three or all four of
    its steps, in order, and nothing else; it returns normally only after
    all four.  The heap is as before. *)
Lemma updateActivityChart_prefix E d st :
  exists n ctx cfg res,
    updateActivityChart E d st =
      (res, {| trace := trace st ++ take n (activity_steps d ctx cfg);
               heap := heap st |}) /\
    (2 <= n <= 4)%nat /\
    Config.type cfg = "bar" /\
    (res = Ok tt -> n = 4%nat).
Proof.
  pose (cfg0 := {| Config.type := "bar";
                   Config.data := {| labels := []; datasets := [] |};
                   Config.options := None |}).
  unfold_js.
  destruct (document E !! "activityChart") as [[gc |] |]; simpl;
    [ destruct (get_prop (heap st) d "post_count"); simpl;
      [ destruct (get_prop (heap st) d "reply_count"); simpl;
        [ destruct (get_prop (heap st) d "mention_count"); simpl;
          [ | exists 3%nat, None, cfg0 ]
        | exists 3%nat, None, cfg0 ]
      | exists 3%nat, None, cfg0 ]
    | exists 2%nat, None, cfg0
    | exists 2%nat, None, cfg0 ];
    try (eexists; rewrite <- ?app_assoc; simpl;
         repeat split; try reflexivity; try lia; discriminate).
  exists 4%nat. do 3 eexists. rewrite <- !app_assoc. simpl.
  split; [apply chart_outcome |]. repeat split; lia.
Qed.

Lemma updateResponseChart_prefix E d st :
  exists n ctx cfg res,
    updateResponseChart E d st =
      (res, {| trace := trace st ++ take n (response_steps d ctx cfg);
               heap := heap st |}) /\
    (2 <= n <= 4)%nat /\
    Config.type cfg = "pie" /\
    (res = Ok tt -> n = 4%nat).
Proof.
  pose (cfg0 := {| Config.type := "pie";
                   Config.data := {| labels := []; datasets := [] |};
                   Config.options := None |}).
  unfold_js.
  destruct (document E !! "responseChart") as [[gc |] |]; simpl;
    [ destruct (get_prop (heap st) d "text_response_count"); simpl;
      [ destruct (get_prop (heap st) d "image_response_count"); simpl;
        [ | exists 3%nat, None, cfg0 ]
      | exists 3%nat, None, cfg0 ]
    | exists 2%nat, None, cfg0
    | exists 2%nat, None, cfg0 ];
    try (eexists; rewrite <- ?app_assoc; simpl;
         repeat split; try reflexivity; try lia; discriminate).
  exists 4%nat. do 3 eexists. rewrite <- !app_assoc. simpl.
  split; [apply chart_outcome |]. repeat split; lia.
Qed.

(** The same of a whole load, for any server, page and library: the
    listener returns a promise, never an exception, and the events of the
    load are the first [n] of the ten steps, all ten when the promise is
    fulfilled. *)
Lemma DOMContentLoaded_prefix E st :
  exists n d ctxA cfgA ctxR cfgR p h,
    DOMContentLoaded E st =
      (Ok p, {| trace := trace st ++ take n (load_steps d ctxA cfgA ctxR cfgR);
                heap := h |}) /\
    (1 <= n <= 10)%nat /\
    Config.type cfgA = "bar" /\
    Config.type cfgR = "pie" /\
    (p = Fulfilled VUndefined \/ exists e, p = Rejected e) /\
    (p = Fulfilled VUndefined -> n = 10%nat).
Proof.
  pose (bar0 := {| Config.type := "bar";
                   Config.data := {| labels := []; datasets := [] |};
                   Config.options := None |}).
  pose (pie0 := {| Config.type := "pie";
                   Config.data := {| labels := []; datasets := [] |};
                   Config.options := None |}).
  destruct (network E "/api/stats") as [r | e] eqn:Hnet.
  2:{ exists 1%nat, VNull, None, bar0, None, pie0, (Rejected e), (heap st).
      split; [| repeat split; try lia; eauto; discriminate].
      unfold DOMContentLoaded, fetch, bind, emit, ret, then_. simpl.
      by rewrite Hnet. }
  destruct (json r) as [[d objs] | e] eqn:Hjson.
  2:{ exists 2%nat, VNull, None, bar0, None, pie0, (Rejected e), (heap st).
      split; [| repeat split; try lia; eauto; discriminate].
      unfold DOMContentLoaded, fetch, response_json, bind, emit, ret, then_.
      simpl. rewrite Hnet, Hjson. simpl. by rewrite <- app_assoc. }
  rewrite (DOMContentLoaded_parsed E st r d objs Hnet Hjson).
  destruct (updateActivityChart_prefix E d (after_parse st objs))
    as (nA & ctxA & cfgA & resA & HrunA & HnA & HtyA & HokA).
  unfold then_, bind at 1. rewrite HrunA.
  destruct resA as [[] | e].
  2:{ exists (2 + nA)%nat, d, ctxA, cfgA, None, pie0, (Rejected e),
        (objs ∪ heap st).
      split; [| repeat split; try lia; eauto; discriminate].
      simpl. rewrite <- app_assoc. do 2 f_equal.
      assert (nA = 2 \/ nA = 3 \/ nA = 4)%nat as [-> | [-> | ->]] by lia;
        reflexivity. }
  rewrite (HokA eq_refl). simpl.
  set (stA := {| trace := _; heap := _ |}).
  destruct (updateResponseChart_prefix E d stA)
    as (nR & ctxR & cfgR & resR & HrunR & HnR & HtyR & HokR).
  unfold bind at 1. rewrite HrunR.
  assert (Htr : trace stA ++ take nR (response_steps d ctxR cfgR) =
                trace st ++ take (6 + nR) (load_steps d ctxA cfgA ctxR cfgR)).
  { unfold stA. simpl. rewrite <- !app_assoc. simpl. reflexivity. }
  rewrite Htr.
  destruct resR as [[] | e].
  - exists (6 + nR)%nat, d, ctxA, cfgA, ctxR, cfgR, (Fulfilled VUndefined),
      (objs ∪ heap st).
    split; [reflexivity |].
    rewrite (HokR eq_refl). repeat split; try lia; eauto.
  - exists (6 + nR)%nat, d, ctxA, cfgA, ctxR, cfgR, (Rejected e),
      (objs ∪ heap st).
    split; [reflexivity |].
    repeat split; try lia; eauto; discriminate.
Qed.

(** X1. Whatever the server, the page and the library do, the events of a
    page load are the first n, n at least 1, of the ten steps: request,
    parse, the four steps of updateActivityChart with a bar configuration,
    the four steps of updateResponseChart with a pie configuration.  No step
    is skipped, repeated or taken out of order. *)
Theorem load_is_prefix_of_the_ten_steps E st :
  exists n d ctxA cfgA ctxR cfgR,
    (1 <= n)%nat /\
    Config.type cfgA = "bar" /\
    Config.type cfgR = "pie" /\
    emitted (DOMContentLoaded E) st
      = take n (load_steps d ctxA cfgA ctxR cfgR).
Proof.
  destruct (DOMContentLoaded_prefix E st)
    as (n & d & ctxA & cfgA & ctxR & cfgR & p & h & Hrun & Hn & HA & HR & _).
  exists n, d, ctxA, cfgA, ctxR, cfgR.
  repeat split; [lia | done | done |].
  apply emitted_app. by rewrite Hrun.
Qed.

(** X2. A page load makes exactly one request, to /api/stats, whether it
    succeeds or not; it enters each routine at most once, the response
    routine only after the activity routine; it looks up at most the two
    surfaces, the activity one first; it calls the constructor at most
    twice. *)
Theorem load_makes_one_request E st :
  fetches (emitted (DOMContentLoaded E) st) = ["/api/stats"] /\
  (calls_of "updateActivityChart" (emitted (DOMContentLoaded E) st) <= 1)%nat /\
  (calls_of "updateResponseChart" (emitted (DOMContentLoaded E) st)
     <= calls_of "updateActivityChart" (emitted (DOMContentLoaded E) st))%nat /\
  lookups (emitted (DOMContentLoaded E) st)
    `prefix_of` ["activityChart"; "responseChart"] /\
  (length (chart_calls (emitted (DOMContentLoaded E) st)) <= 2)%nat.
Proof.
  destruct (DOMContentLoaded_prefix E st)
    as (n & d & ctxA & cfgA & ctxR & cfgR & p & h & Hrun & Hn & _).
  rewrite (emitted_app _ st _ (f_equal (fun q => trace q.2) Hrun)).
  destruct Hn as [Hn1 Hn10].
  do 11 (destruct n as [| n]; [try lia; simpl;
    repeat split; try lia; try (eexists; reflexivity) |]).
  lia.
Qed.

(** ** A surface that is not there *)

(** X3. When the page has no element under the id of a routine's surface,
    or has one that is not a canvas, the routine throws a TypeError right
    after the lookup: it seeks no context, does not read the payload and
    does not call the constructor, whatever the payload is. *)
Theorem missing_surface_throws E d st :
  (no_canvas E "activityChart" ->
   exists msg,
     updateActivityChart E d st =
       (Throw (TypeError msg),
        {| trace := trace st ++
             [EvCall "updateActivityChart" d; EvGetElementById "activityChart"];
           heap := heap st |})) /\
  (no_canvas E "responseChart" ->
   exists msg,
     updateResponseChart E d st =
       (Throw (TypeError msg),
        {| trace := trace st ++
             [EvCall "updateResponseChart" d; EvGetElementById "responseChart"];
           heap := heap st |})).
Proof.
  split; intros [Hdoc | Hdoc]; unfold_js; rewrite Hdoc; simpl;
    rewrite <- app_assoc; eexists; reflexivity.
Qed.

Lemma missing_surface_throws_div_and_absent :
  (exists msg,
     updateActivityChart env_div_activity VNull state0 =
       (Throw (TypeError msg),
        {| trace := [EvCall "updateActivityChart" VNull;
                     EvGetElementById "activityChart"];
           heap := ∅ |})) /\
  (exists msg,
     updateResponseChart env_no_response (VRef 0%nat) state_5_3_1_7_2 =
       (Throw (TypeError msg),
        {| trace := [EvCall "updateResponseChart" (VRef 0%nat);
                     EvGetElementById "responseChart"];
           heap := heap state_5_3_1_7_2 |})).
Proof.
  split.
  - apply (proj1 (missing_surface_throws env_div_activity VNull state0)).
    right. vm_compute. reflexivity.
  - apply (proj2 (missing_surface_throws env_no_response (VRef 0%nat)
                    state_5_3_1_7_2)).
    left. vm_compute. reflexivity.
Defined.

(** ** A body that is null *)

(** X4. When the body of /api/stats is the JSON text null and the activity
    surface is in the page, the load gets as far as the drawing context of
    the activity chart and stops there: reading post_count throws, no chart
    is drawn, updateResponseChart is not entered, and the chain ends
    rejected with that TypeError. *)
Theorem null_body_load E st r objs gc :
  network E "/api/stats" = Fulfilled r ->
  json r = Fulfilled (VNull, objs) ->
  document E !! "activityChart" = Some (Canvas gc) ->
  DOMContentLoaded E st =
    (Ok (Rejected (TypeError "Cannot read properties of null")),
     {| trace := trace st ++
          [EvFetch "/api/stats"; EvJson;
           EvCall "updateActivityChart" VNull;
           EvGetElementById "activityChart"; EvGetContext "2d"];
        heap := objs ∪ heap st |}).
Proof.
  intros Hnet Hjson Hdoc.
  rewrite (DOMContentLoaded_parsed E st r VNull objs Hnet Hjson).
  unfold then_, after_parse. unfold_js. rewrite Hdoc. simpl.
  by rewrite <- !app_assoc.
Qed.

Lemma null_body_load_page_full :
  DOMContentLoaded env_null state0 =
    (Ok (Rejected (TypeError "Cannot read properties of null")),
     {| trace :=
          [EvFetch "/api/stats"; EvJson;
           EvCall "updateActivityChart" VNull;
           EvGetElementById "activityChart"; EvGetContext "2d"];
        heap := ∅ ∪ ∅ |}).
Proof.
  apply (null_body_load env_null state0 {| json := Fulfilled (VNull, ∅) |} ∅
           (context_of "activityChart")).
  - reflexivity.
  - reflexivity.
  - vm_compute. reflexivity.
Defined.

(** ** When the second render throws *)

(** X5. If updateActivityChart returns and updateResponseChart then throws,
    the load ends rejected with that exception, and the bar chart drawn
    before stays drawn: the constructor calls of the load start with the
    bar call and hold at most one more.  Nothing is undone. *)
Theorem response_failure_keeps_activity_chart E st r d objs stA e stR :
  network E "/api/stats" = Fulfilled r ->
  json r = Fulfilled (d, objs) ->
  updateActivityChart E d (after_parse st objs) = (Ok tt, stA) ->
  updateResponseChart E d stA = (Throw e, stR) ->
  DOMContentLoaded E st = (Ok (Rejected e), stR) /\
  calls_of "updateResponseChart" (emitted (DOMContentLoaded E) st) = 1%nat /\
  exists ctx cfg rest,
    chart_calls (emitted (DOMContentLoaded E) st) = (ctx, cfg) :: rest /\
    Config.type cfg = "bar" /\
    (length rest <= 1)%nat.
Proof.
  intros Hnet Hjson HA HR.
  assert (Hrun : DOMContentLoaded E st = (Ok (Rejected e), stR)).
  { rewrite (DOMContentLoaded_parsed E st r d objs Hnet Hjson).
    unfold then_, bind at 1. rewrite HA. unfold bind at 1. by rewrite HR. }
  split; [exact Hrun |].
  destruct (updateActivityChart_prefix E d (after_parse st objs))
    as (nA & ctxA & cfgA & resA & HrunA & _ & HtyA & HokA).
  rewrite HA in HrunA. injection HrunA as <- HstA.
  rewrite (HokA eq_refl) in HstA.
  destruct (updateResponseChart_prefix E d stA)
    as (nR & ctxR & cfgR & resR & HrunR & HnR & _).
  rewrite HR in HrunR. injection HrunR as <- HstR.
  rewrite (emitted_app _ st
             (take (6 + nR) (load_steps d ctxA cfgA ctxR cfgR))).
  2:{ rewrite Hrun, HstR, HstA. simpl. by rewrite <- !app_assoc. }
  assert (nR = 2 \/ nR = 3 \/ nR = 4)%nat as [-> | [-> | ->]] by lia;
    (split; [reflexivity |]); exists ctxA, cfgA; eexists;
    (split; [reflexivity | split; [exact HtyA | simpl; lia]]).
Qed.

(** The page has the activity surface only: the bar chart is drawn, the
    lookup of the response surface gives null, and the load ends rejected. *)
Lemma response_failure_keeps_activity_chart_no_surface :
  (DOMContentLoaded env_no_response state0).1
    = Ok (Rejected (TypeError "Cannot read properties of null")) /\
  calls_of "updateResponseChart"
    (emitted (DOMContentLoaded env_no_response) state0) = 1%nat /\
  exists ctx cfg rest,
    chart_calls (emitted (DOMContentLoaded env_no_response) state0)
      = (ctx, cfg) :: rest /\
    Config.type cfg = "bar" /\
    (length rest <= 1)%nat.
Proof.
  destruct (response_failure_keeps_activity_chart env_no_response state0
              {| json := Fulfilled (VRef 0%nat,
                           {[ 0%nat := snapshot_obj snapshot_5_3_1_7_2 ]}) |}
              (VRef 0%nat) {[ 0%nat := snapshot_obj snapshot_5_3_1_7_2 ]}
              (updateActivityChart env_no_response (VRef 0%nat)
                 (after_parse state0
                    {[ 0%nat := snapshot_obj snapshot_5_3_1_7_2 ]})).2
              (TypeError "Cannot read properties of null")
              (DOMContentLoaded env_no_response state0).2
              eq_refl eq_refl)
    as (Hrun & Hrest).
  - vm_compute. reflexivity.
  - vm_compute. reflexivity.
  - rewrite Hrun. exact (conj eq_refl Hrest).
Defined.

(** ** When the chain is fulfilled *)

(** X6. The listener never throws: every failure of a callback ends up in
    the promise of the chain.  That promise is fulfilled exactly when the
    fetch and the parse succeed and both routines return normally, and its
    value is then undefined. *)
Theorem load_fulfilled_iff E st :
  (exists p, (DOMContentLoaded E st).1 = Ok p) /\
  (forall v, (DOMContentLoaded E st).1 = Ok (Fulfilled v) -> v = VUndefined) /\
  ((DOMContentLoaded E st).1 = Ok (Fulfilled VUndefined) <->
   exists r d objs stA,
     network E "/api/stats" = Fulfilled r /\
     json r = Fulfilled (d, objs) /\
     updateActivityChart E d (after_parse st objs) = (Ok tt, stA) /\
     (updateResponseChart E d stA).1 = Ok tt).
Proof.
  destruct (network E "/api/stats") as [r | e] eqn:Hnet.
  2:{ assert (Hrun : (DOMContentLoaded E st).1 = Ok (Rejected e)).
      { unfold DOMContentLoaded, fetch, bind, emit, ret, then_. simpl.
        by rewrite Hnet. }
      rewrite Hrun. split; [eauto | split; [intros v Hv; discriminate Hv |]].
      split; [discriminate | intros (? & ? & ? & ? & ? & _); discriminate]. }
  destruct (json r) as [[d objs] | e] eqn:Hjson.
  2:{ assert (Hrun : (DOMContentLoaded E st).1 = Ok (Rejected e)).
      { unfold DOMContentLoaded, fetch, response_json, bind, emit, ret, then_.
        simpl. by rewrite Hnet, Hjson. }
      rewrite Hrun. split; [eauto | split; [intros v Hv; discriminate Hv |]].
      split; [discriminate |].
      intros (r' & ? & ? & ? & Hr & Hj & _). congruence. }
  rewrite (DOMContentLoaded_parsed E st r d objs Hnet Hjson).
  unfold then_, bind, ret.
  destruct (updateActivityChart E d (after_parse st objs))
    as [[[] | e] stA] eqn:HA.
  2:{ simpl. split; [eauto | split; [intros v Hv; discriminate Hv |]].
      split; [discriminate |].
      intros (r' & d' & objs' & stA' & Hr & Hj & HA' & _).
      assert (r' = r) as -> by congruence.
      assert (d' = d /\ objs' = objs) as [-> ->]
        by (split; congruence).
      congruence. }
  destruct (updateResponseChart E d stA) as [[[] | e] stR] eqn:HR.
  - simpl. split; [eauto | split; [by intros v [= <-] |]].
    split; [| done]. intros _. exists r, d, objs, stA.
    by rewrite HR.
  - simpl. split; [eauto | split; [intros v Hv; discriminate Hv |]].
    split; [discriminate |].
    intros (r' & d' & objs' & stA' & Hr & Hj & HA' & HR').
    assert (r' = r) as -> by congruence.
    assert (d' = d /\ objs' = objs) as [-> ->]
      by (split; congruence).
    assert (stA' = stA) as -> by congruence.
    rewrite HR in HR'. discriminate.
Qed.

(** ** What the charts say about the payload *)

(** X7. The two charts together show the snapshot and nothing less: if two
    payloads lead to the same constructor calls in both routines, they
    deserialize to the same snapshot.  No count is dropped, clamped or
    merged with another on its way to the library. *)
Theorem chart_arguments_determine_snapshot E st1 st2 d1 d2 s1 s2 gcA gcR :
  represents (heap st1) d1 s1 ->
  represents (heap st2) d2 s2 ->
  surfaces E gcA gcR ->
  chart_calls (emitted (updateActivityChart E d1) st1)
    = chart_calls (emitted (updateActivityChart E d2) st2) ->
  chart_calls (emitted (updateResponseChart E d1) st1)
    = chart_calls (emitted (updateResponseChart E d2) st2) ->
  s1 = s2.
Proof.
  intros (P1 & Q1 & M1 & T1 & I1) (P2 & Q2 & M2 & T2 & I2) [HdocA HdocR].
  destruct (updateActivityChart_run E d1 st1 gcA _ _ _ HdocA P1 Q1 M1)
    as (cA1 & dA1 & HrA1 & _ & _ & HdsA1 & HdA1 & _).
  destruct (updateActivityChart_run E d2 st2 gcA _ _ _ HdocA P2 Q2 M2)
    as (cA2 & dA2 & HrA2 & _ & _ & HdsA2 & HdA2 & _).
  destruct (updateResponseChart_run E d1 st1 gcR _ _ HdocR T1 I1)
    as (cR1 & dR1 & HrR1 & _ & _ & HdsR1 & HdR1 & _).
  destruct (updateResponseChart_run E d2 st2 gcR _ _ HdocR T2 I2)
    as (cR2 & dR2 & HrR2 & _ & _ & HdsR2 & HdR2 & _).
  rewrite (emitted_app _ st1 _ (f_equal (fun p => trace p.2) HrA1)).
  rewrite (emitted_app _ st2 _ (f_equal (fun p => trace p.2) HrA2)).
  rewrite (emitted_app _ st1 _ (f_equal (fun p => trace p.2) HrR1)).
  rewrite (emitted_app _ st2 _ (f_equal (fun p => trace p.2) HrR2)).
  simpl. intros [= HcA] [= HcR]. subst cA2 cR2.
  rewrite HdsA1 in HdsA2. injection HdsA2 as <-.
  rewrite HdsR1 in HdsR2. injection HdsR2 as <-.
  rewrite HdA1 in HdA2. injection HdA2 as Hp Hq Hm.
  rewrite HdR1 in HdR2. injection HdR2 as Ht Hi.
  destruct s1, s2. simpl in *. congruence.
Qed.

Lemma chart_arguments_determine_snapshot_same :
  snapshot_5_3_1_7_2 = snapshot_5_3_1_7_2.
Proof.
  apply (chart_arguments_determine_snapshot env_5_3_1_7_2
           state_5_3_1_7_2
           {| trace := [EvFetch "/api/stats"; EvJson];
              heap := heap state_5_3_1_7_2 |}
           (VRef 0%nat) (VRef 0%nat)
           snapshot_5_3_1_7_2 snapshot_5_3_1_7_2
           (context_of "activityChart") (context_of "responseChart")).
  - repeat split; vm_compute; reflexivity.
  - repeat split; vm_compute; reflexivity.
  - split; vm_compute; reflexivity.
  - vm_compute. reflexivity.
  - vm_compute. reflexivity.
Defined.

(** ** The configuration of the response chart *)

(** X8. For every payload whose two response counts can be read, and with
    the response canvas in the page, the pie chart is configured without an
    options object and its one dataset has no label, border width 1, and a
    background and a border colour for each of the two labels, the literals
    of the script, no two equal. *)
Theorem response_chart_palette_no_options E st d v0 v1 gc :
  get_prop (heap st) d "text_response_count" = Ok v0 ->
  get_prop (heap st) d "image_response_count" = Ok v1 ->
  document E !! "responseChart" = Some (Canvas gc) ->
  exists cfg ds,
    chart_calls (emitted (updateResponseChart E d) st) = [(gc "2d", cfg)] /\
    Config.options cfg = None /\
    datasets (Config.data cfg) = [ds] /\
    Dataset.label ds = None /\
    Dataset.borderWidth ds = 1 /\
    Dataset.backgroundColor ds =
      ["rgba(255, 99, 132, 0.2)"; "rgba(255, 206, 86, 0.2)"] /\
    Dataset.borderColor ds =
      ["rgba(255, 99, 132, 1)"; "rgba(255, 206, 86, 1)"] /\
    NoDup (Dataset.backgroundColor ds) /\
    NoDup (Dataset.borderColor ds) /\
    length (Dataset.backgroundColor ds) = length (labels (Config.data cfg)) /\
    length (Dataset.borderColor ds) = length (labels (Config.data cfg)).
Proof.
  intros H0 H1 Hdoc. unfold emitted. unfold_js. rewrite Hdoc. simpl.
  rewrite H0, H1. simpl.
  do 2 eexists. split.
  - destruct (chart_throws E _ _ _); simpl;
      rewrite <- !app_assoc, drop_app_length; reflexivity.
  - simpl. repeat split; try reflexivity;
      apply (bool_decide_unpack _); by vm_compute.
Qed.

Lemma response_chart_palette_no_options_7_2 :
  exists cfg ds,
    chart_calls (emitted (updateResponseChart env_5_3_1_7_2 (VRef 0%nat))
                   state_5_3_1_7_2)
      = [(Some (Context2D "responseChart"), cfg)] /\
    Config.options cfg = None /\
    datasets (Config.data cfg) = [ds] /\
    Dataset.label ds = None /\
    Dataset.borderWidth ds = 1 /\
    Dataset.backgroundColor ds =
      ["rgba(255, 99, 132, 0.2)"; "rgba(255, 206, 86, 0.2)"] /\
    Dataset.borderColor ds =
      ["rgba(255, 99, 132, 1)"; "rgba(255, 206, 86, 1)"] /\
    NoDup (Dataset.backgroundColor ds) /\
    NoDup (Dataset.borderColor ds) /\
    length (Dataset.backgroundColor ds) = length (labels (Config.data cfg)) /\
    length (Dataset.borderColor ds) = length (labels (Config.data cfg)).
Proof.
  apply (response_chart_palette_no_options env_5_3_1_7_2 state_5_3_1_7_2
           (VRef 0%nat) (VNum 7) (VNum 2) (context_of "responseChart")).
  - vm_compute. reflexivity.
  - vm_compute. reflexivity.
  - vm_compute. reflexivity.
Defined.

(** ** Properties the payload does not have *)

(** X9. For a payload that is an object, each slot of the data arrays holds
    the object's own property of that name, and undefined where the object
    has none: a missing count is neither skipped nor replaced by 0, and the
    arrays keep their three and two slots. *)
Theorem object_payload_absent_fields E st l o gcA gcR :
  heap st !! l = Some o ->
  surfaces E gcA gcR ->
  exists cfgA cfgR,
    chart_calls (emitted (updateActivityChart E (VRef l)) st)
      = [(gcA "2d", cfgA)] /\
    chart_calls (emitted (updateResponseChart E (VRef l)) st)
      = [(gcR "2d", cfgR)] /\
    data_arrays cfgA =
      [[default VUndefined (o !! "post_count");
        default VUndefined (o !! "reply_count");
        default VUndefined (o !! "mention_count")]] /\
    data_arrays cfgR =
      [[default VUndefined (o !! "text_response_count");
        default VUndefined (o !! "image_response_count")]].
Proof.
  intros Hl [HdocA HdocR].
  assert (Hread : forall k,
            get_prop (heap st) (VRef l) k = Ok (default VUndefined (o !! k))).
  { intros k. simpl. by rewrite Hl. }
  destruct (updateActivityChart_run E (VRef l) st gcA _ _ _ HdocA
              (Hread _) (Hread _) (Hread _))
    as (cfgA & dsA & HrunA & _ & _ & HdsA & HdataA & _).
  destruct (updateResponseChart_run E (VRef l) st gcR _ _ HdocR
              (Hread _) (Hread _))
    as (cfgR & dsR & HrunR & _ & _ & HdsR & HdataR & _).
  exists cfgA, cfgR.
  rewrite (emitted_app _ st _ (f_equal (fun p => trace p.2) HrunA)).
  rewrite (emitted_app _ st _ (f_equal (fun p => trace p.2) HrunR)).
  unfold data_arrays. rewrite HdsA, HdsR. simpl. rewrite HdataA, HdataR.
  by repeat split.
Qed.

(** An object with reply_count and image_response_count only. *)
Lemma object_payload_absent_fields_sparse :
  exists cfgA cfgR,
    chart_calls (emitted (updateActivityChart env_5_3_1_7_2 (VRef 0%nat))
                   state_sparse)
      = [(Some (Context2D "activityChart"), cfgA)] /\
    chart_calls (emitted (updateResponseChart env_5_3_1_7_2 (VRef 0%nat))
                   state_sparse)
      = [(Some (Context2D "responseChart"), cfgR)] /\
    data_arrays cfgA = [[VUndefined; VNum 3; VUndefined]] /\
    data_arrays cfgR = [[VUndefined; VNum 2]].
Proof.
  apply (object_payload_absent_fields env_5_3_1_7_2 state_sparse 0%nat
           sparse_obj
           (context_of "activityChart") (context_of "responseChart")).
  - vm_compute. reflexivity.
  - split; vm_compute; reflexivity.
Defined.

(** ** Styling does not look at the payload *)

(** X10. Apart from the data arrays, what the routines hand to the
    constructor is the same for any two payloads other than null: type,
    labels, dataset label, colours, border width and options are fixed by
    the script and never computed from the counts. *)
Theorem chart_style_independent_of_payload E st1 st2 d1 d2 :
  is_json d1 = true -> d1 <> VNull ->
  is_json d2 = true -> d2 <> VNull ->
  styled_calls (emitted (updateActivityChart E d1) st1)
    = styled_calls (emitted (updateActivityChart E d2) st2) /\
  styled_calls (emitted (updateResponseChart E d1) st1)
    = styled_calls (emitted (updateResponseChart E d2) st2).
Proof.
  intros J1 N1 J2 N2.
  destruct (get_prop_defined (heap st1) d1 "post_count" J1 N1) as [a0 A0].
  destruct (get_prop_defined (heap st1) d1 "reply_count" J1 N1) as [a1 A1].
  destruct (get_prop_defined (heap st1) d1 "mention_count" J1 N1) as [a2 A2].
  destruct (get_prop_defined (heap st1) d1 "text_response_count" J1 N1)
    as [a3 A3].
  destruct (get_prop_defined (heap st1) d1 "image_response_count" J1 N1)
    as [a4 A4].
  destruct (get_prop_defined (heap st2) d2 "post_count" J2 N2) as [b0 B0].
  destruct (get_prop_defined (heap st2) d2 "reply_count" J2 N2) as [b1 B1].
  destruct (get_prop_defined (heap st2) d2 "mention_count" J2 N2) as [b2 B2].
  destruct (get_prop_defined (heap st2) d2 "text_response_count" J2 N2)
    as [b3 B3].
  destruct (get_prop_defined (heap st2) d2 "image_response_count" J2 N2)
    as [b4 B4].
  split; unfold styled_calls, emitted; unfold_js.
  - destruct (document E !! "activityChart") as [[gc |] |]; simpl;
      [ rewrite A0, A1, A2, B0, B1, B2; simpl;
        do 2 destruct (chart_throws E _ _ _); simpl | | ];
      rewrite <- ?app_assoc, ?drop_app_length; reflexivity.
  - destruct (document E !! "responseChart") as [[gc |] |]; simpl;
      [ rewrite A3, A4, B3, B4; simpl;
        do 2 destruct (chart_throws E _ _ _); simpl | | ];
      rewrite <- ?app_assoc, ?drop_app_length; reflexivity.
Qed.

(** A snapshot and the payload with a string, a null and a missing count
    are drawn in the same style. *)
Lemma chart_style_independent_of_payload_odd :
  styled_calls (emitted (updateActivityChart env_5_3_1_7_2 (VRef 0%nat))
                  state_5_3_1_7_2)
    = styled_calls (emitted (updateActivityChart env_5_3_1_7_2 (VRef 0%nat))
                      state_odd) /\
  styled_calls (emitted (updateResponseChart env_5_3_1_7_2 (VRef 0%nat))
                  state_5_3_1_7_2)
    = styled_calls (emitted (updateResponseChart env_5_3_1_7_2 (VRef 0%nat))
                      state_odd).
Proof.
  apply (chart_style_independent_of_payload env_5_3_1_7_2
           state_5_3_1_7_2 state_odd (VRef 0%nat) (VRef 0%nat)).
  - reflexivity.
  - discriminate.
  - reflexivity.
  - discriminate.
Defined.
